(** * AI-reviewer: the editor client, the HTTP application and the model service

    A shallow embedding of the three JavaScript modules of the repository:
    - [Frontend]: the React component [App] with its [reviewCode] action
      (frontend/src/App.jsx);
    - [Backend]: the generative-model service [generateContent] with its
      configured [model] (ai.service.js) and the Express application [app]
      (app.js), together with the review route the application mounts.

    JavaScript values are an inductive type, exceptions and the console are
    threaded through a small state-and-exception monad, and the answers of the
    outside world (the generative-language API, the HTTP exchange made by
    axios) are functions the programs are parameterised by. *)

From Stdlib Require Import String Ascii List ZArith Bool Lia.
Import ListNotations.

Local Open Scope string_scope.
Local Open Scope list_scope.

(** ** JavaScript values *)

Module JS.

#[local] Set Warnings "-register-all".

(** The values the programs handle: primitives and plain objects. Numbers are
    kept to the integral ones. *)
Inductive JSValue : Type :=
| JUndefined
| JNull
| JBool (b : bool)
| JNumber (n : Z)
| JString (s : string)
| JObject (fields : list (string * JSValue)).

(** ToBoolean: [undefined], [null], [false], [0] and the empty string are falsy. *)
Definition truthy (v : JSValue) : bool :=
  match v with
  | JUndefined | JNull => false
  | JBool b => b
  | JNumber n => negb (Z.eqb n 0)
  | JString s => negb (String.eqb s "")
  | JObject _ => true
  end.

(** [a || b] *)
Definition js_or (a b : JSValue) : JSValue :=
  if truthy a then a else b.

(** Own property of a plain object; a property that is absent reads as
    [undefined]. *)
Fixpoint lookup (key : string) (fields : list (string * JSValue)) : JSValue :=
  match fields with
  | [] => JUndefined
  | (k, v) :: rest => if String.eqb k key then v else lookup key rest
  end.

(** How a computation ends: with a value, or with a thrown exception. *)
Inductive Completion (E A : Type) : Type :=
| Normal (a : A)
| Thrown (e : E).
Arguments Normal {E A} a.
Arguments Thrown {E A} e.

(** [v.key]: reading a property of [undefined] or [null] throws a TypeError;
    primitives have no own property of the names used here. *)
Definition member (v : JSValue) (key : string) : Completion JSValue JSValue :=
  match v with
  | JUndefined | JNull =>
      Thrown (JObject [("name", JString "TypeError")])
  | JObject fields => Normal (lookup key fields)
  | _ => Normal JUndefined
  end.

(** [hay.includes(needle)]: [needle] occurs in [hay] as a contiguous run. *)
Fixpoint includes (needle hay : string) : bool :=
  String.prefix needle hay ||
  match hay with
  | EmptyString => false
  | String _ rest => includes needle rest
  end.

End JS.
Import JS.

(** ** Computations with a state, a console and exceptions *)

Module Eff.

(** A computation over a world [W] that may throw an [E]. *)
Definition M (W E A : Type) : Type := W -> Completion E A * W.

Definition ret {W E A} (a : A) : M W E A := fun w => (Normal a, w).

Definition bind {W E A B} (m : M W E A) (k : A -> M W E B) : M W E B :=
  fun w =>
    match m w with
    | (Normal a, w') => k a w'
    | (Thrown e, w') => (Thrown e, w')
    end.

(** [throw e] *)
Definition throw {W E A} (e : E) : M W E A := fun w => (Thrown e, w).

(** [try { body } catch (error) { handler }]: the effects of [body] up to
    the throw are kept. *)
Definition try_catch {W E A} (body : M W E A) (handler : E -> M W E A)
  : M W E A :=
  fun w =>
    match body w with
    | (Normal a, w') => (Normal a, w')
    | (Thrown e, w') => handler e w'
    end.

(** A call that completes without touching the world. *)
Definition lift {W E A} (c : Completion E A) : M W E A := fun w => (c, w).

Definition gets {W E A} (f : W -> A) : M W E A := fun w => (Normal (f w), w).

Definition modify {W E} (f : W -> W) : M W E unit := fun w => (Normal tt, f w).

End Eff.
Import Eff.

Declare Scope js_scope.
Delimit Scope js_scope with js.
Notation "x <- m ;; k" := (bind m (fun x => k))
  (at level 100, m at next level, right associativity) : js_scope.
Notation "m ;;; k" := (bind m (fun _ => k))
  (at level 100, right associativity) : js_scope.
Local Open Scope js_scope.

(** ** The backend: ai.service.js and app.js *)

Module Backend.

(** *** The configured model (ai.service.js) *)

(** The [systemInstruction] literal handed to [getGenerativeModel]: the fixed
    prompt template, with the escapes of the template literal resolved. *)
Definition PromptTemplate : string := "
    You are an expert code reviewer. Analyze code and provide detailed feedback in this format:

    📝 SIMPLE CODE PATTERNS
    ====================
    Basic patterns for common tasks:

    1️⃣ Array Operations:
    ```javascript
    // Filter array
    const filtered = array.filter(item => condition);

    // Map values
    const mapped = array.map(item => transform(item));

    // Find item
    const found = array.find(item => condition);

    // Check existence
    const exists = array.some(item => condition);
    ```

    2️⃣ Object Operations:
    ```javascript
    // Create object
    const obj = { key: value };

    // Clone object
    const clone = { ...obj };

    // Merge objects
    const merged = { ...obj1, ...obj2 };

    // Get keys/values
    const keys = Object.keys(obj);
    const values = Object.values(obj);
    ```

    3️⃣ String Operations:
    ```javascript
    // Split string
    const parts = str.split(separator);

    // Join array
    const joined = array.join(separator);

    // Replace text
    const replaced = str.replace(search, replacement);

    // Template literal
    const template = `Value: ${value}`;
    ```

    4️⃣ Basic Functions:
    ```javascript
    // Arrow function
    const add = (a, b) => a + b;

    // Regular function
    function multiply(a, b) {
        return a * b;
    }

    // Async function
    async function fetchData() {
        try {
            return await getData();
        } catch (error) {
            console.error(error);
        }
    }
    ```

    5️⃣ Control Flow:
    ```javascript
    // If-else
    if (condition) {
        doSomething();
    } else {
        doOther();
    }

    // Ternary
    const result = condition ? valueA : valueB;

    // Switch
    switch (value) {
        case 'A': return resultA;
        case 'B': return resultB;
        default: return defaultResult;
    }
    ```

    6️⃣ Error Handling:
    ```javascript
    // Basic try-catch
    try {
        doRiskyOperation();
    } catch (error) {
        handleError(error);
    }

    // With finally
    try {
        connectToDatabase();
    } catch (error) {
        logError(error);
    } finally {
        cleanup();
    }
    ```

    7️⃣ Promises:
    ```javascript
    // Promise chain
    getData()
        .then(process)
        .catch(handleError);

    // Async/await
    const data = await getData();

    // Promise.all
    const results = await Promise.all([
        task1(),
        task2()
    ]);
    ```

    📝 CURRENT CODE ANALYSIS
    =====================
    Show the code with issue markers:
    ```javascript
    // 🚫 Missing error handling
    // ⚠️ No input validation
    function processUserData(data) {
        const result = data.map(item => item.value);
        return result;
    }
    ```

    🔍 ISSUES DETECTED
    ================
    List all problems:
    ❌ No input validation
       → Could crash with null/undefined
    ❌ Missing error handling
       → Silent failures
    ❌ No type checking
       → Potential runtime errors

    🎯 CORRECT CODE PATTERNS
    =====================
    Show proper implementation patterns:

    1️⃣ Input Validation Pattern:
    ```javascript
    function validateInput(data) {
        if (!Array.isArray(data)) {
            throw new TypeError('Input must be an array');
        }
        if (data.length === 0) {
            throw new Error('Input array cannot be empty');
        }
        return true;
    }
    ```

    2️⃣ Error Handling Pattern:
    ```javascript
    try {
        // Main logic
    } catch (error) {
        // Log error
        console.error('Operation failed:', error);
        // Rethrow or handle
        throw new Error('Operation failed: ' + error.message);
    }
    ```

    3️⃣ Type Checking Pattern:
    ```javascript
    function checkTypes(item) {
        if (typeof item !== 'object' || item === null) {
            throw new TypeError('Invalid item type');
        }
        if (!Object.hasOwn(item, 'value')) {
            throw new Error('Item missing required property');
        }
    }
    ```

    ✨ IMPROVED COMPLETE CODE
    ======================
    ```javascript
    /**
     * Process user data with comprehensive error handling
     * @param {Array} data - Array of user data objects
     * @returns {Array} Processed values
     * @throws {Error} If validation fails
     */
    function processUserData(data) {
        // 🔐 Input validation
        validateInput(data);

        try {
            // 🔍 Process with type checking
            return data.map(item => {
                checkTypes(item);
                return item.value;
            });
        } catch (error) {
            // 🚨 Error handling
            console.error('Data processing failed:', error);
            throw new Error('Failed to process user data: ' + error.message);
        }
    }

    // 📋 Usage example
    try {
        const userData = [
            { value: 'John' },
            { value: 'Jane' }
        ];
        const result = processUserData(userData);
        console.log('Success:', result);
    } catch (error) {
        console.error('Error:', error.message);
    }
    ```

    📈 ADVANTAGES
    ===========
    ✅ Complete input validation
    ✅ Comprehensive error handling
    ✅ Type safety checks
    ✅ Clear documentation
    ✅ Usage examples included

    ⚖️ TRADE-OFFS
    ===========
    ⚠️ More verbose code
    ⚠️ Additional processing overhead
    ⚠️ More complex error handling
    ⚠️ Requires more testing

    🔧 IMPLEMENTATION GUIDE
    ====================
    1. 📌 Add Validation First
       • Implement input checks
       • Add type validation
       • Handle edge cases

    2. 🛠️ Core Logic
       • Process data safely
       • Use proper methods
       • Maintain immutability

    3. 🚨 Error Handling
       • Catch specific errors
       • Log appropriately
       • Return clear messages

    🧪 TESTING SCENARIOS
    =================
    ✓ Valid input cases:
      • Normal array input
      • Different data types
      • Edge case values

    ✓ Error cases:
      • Null/undefined input
      • Invalid array items
      • Missing properties

    💡 BEST PRACTICES
    ==============
    1. 🔒 Always validate inputs
    2. 🛡️ Use try-catch blocks
    3. 📝 Document functions
    4. ✨ Include examples
    5. 🧪 Write test cases

    Remember:
    • 🎯 Follow the patterns shown
    • 📝 Include documentation
    • ⚡ Consider performance
    • 🔄 Handle all edge cases
    • 📚 Provide usage examples
    ".

(** The object returned by [genAI.getGenerativeModel]: the options it was
    built from. *)
Record GenerativeModel : Type := {
  modelName : string;
  systemInstruction : string
}.

(** [result.response]: [text()] gives the generated text, or throws when the
    response carries none. *)
Record EnhancedResponse : Type := {
  text : unit -> Completion JSValue string
}.

(** What [model.generateContent] resolves to. *)
Record GenerateContentResult : Type := {
  response : EnhancedResponse
}.

(** What the server process does that can be seen from outside. *)
Inductive Event : Type :=
| GenerateContentCall (m : GenerativeModel) (prompt : JSValue)
| ConsoleError (args : list JSValue).

(** The server process: the module-level [model] object and the events so
    far, oldest first. *)
Record Process : Type := {
  model : GenerativeModel;
  events : list Event
}.

Definition emit (e : Event) (p : Process) : Process :=
  {| model := model p; events := events p ++ [e] |}.

(** The process after the modules are loaded:
    [const model = genAI.getGenerativeModel({ model: ..., systemInstruction: ... })]. *)
Definition boot : Process :=
  {| model := {| modelName := "gemini-2.0-flash";
                 systemInstruction := PromptTemplate |};
     events := [] |}.

(** The calls of [model.generateContent] among the events, in order. *)
Fixpoint calls (evs : list Event) : list (GenerativeModel * JSValue) :=
  match evs with
  | [] => []
  | GenerateContentCall m prompt :: rest => (m, prompt) :: calls rest
  | ConsoleError _ :: rest => calls rest
  end.

(** *** The requests and responses of the application (app.js) *)

Inductive Method : Type :=
| GET | HEAD | POST | PUT | PATCH | DELETE | OPTIONS.

Definition method_eqb (a b : Method) : bool :=
  match a, b with
  | GET, GET | HEAD, HEAD | POST, POST | PUT, PUT
  | PATCH, PATCH | DELETE, DELETE | OPTIONS, OPTIONS => true
  | _, _ => false
  end.

(** The request object: [headers] and [content] are what arrived over HTTP,
    [body] is [req.body], which the JSON body parser sets. *)
Record Request : Type := {
  method : Method;
  path : string;
  headers : list (string * string);
  content : string;
  body : JSValue
}.

Record Response : Type := {
  status : Z;
  payload : JSValue
}.

(** [res.send(v)] *)
Definition send (v : JSValue) : Response := {| status := 200; payload := v |}.

(** The answer of the router when no layer takes the request. *)
Definition notFound : Response := {| status := 404; payload := JUndefined |}.

Definition Handler : Type := Request -> M Process JSValue Response.

Definition RouteTable : Type := list (Method * string * Handler).

(** What a middleware does with a request: it hands the request on to the
    next layer, possibly changed, or the request is answered at this layer,
    with the lines written to the console on the way. *)
Inductive Passage : Type :=
| HandOn (req : Request)
| Answer (res : Response) (logged : list (list JSValue)).

Definition Middleware : Type := Request -> Passage.

(** The layers of an application, in the order they are registered. *)
Inductive Layer : Type :=
| Use (middleware : Middleware)
| Route (m : Method) (p : string) (h : Handler)
| Mount (prefix : string) (router : RouteTable).

(** [console.error] called once for each of [lines]. *)
Definition write (lines : list (list JSValue)) (p : Process) : Process :=
  {| model := model p; events := events p ++ map ConsoleError lines |}.

(** Paths are matched without regard to the case of letters. *)
Definition lower_ascii (c : ascii) : ascii :=
  let n := nat_of_ascii c in
  if Nat.leb 65 n && Nat.leb n 90 then ascii_of_nat (n + 32) else c.

Fixpoint lower (s : string) : string :=
  match s with
  | EmptyString => EmptyString
  | String c rest => String (lower_ascii c) (lower rest)
  end.

Fixpoint ends_with_slash (s : string) : bool :=
  match s with
  | EmptyString => false
  | String c EmptyString => Ascii.eqb c "/"
  | String _ rest => ends_with_slash rest
  end.

(** Whether the path of a route takes the path of a request: one slash at
    the end is optional. *)
Definition route_matches (pattern p : string) : bool :=
  let a := lower pattern in
  let b := lower p in
  if ends_with_slash a
  then String.eqb a b || String.eqb a (b ++ "/")
  else String.eqb a b || String.eqb (a ++ "/") b.

(** Whether a route registered for [m] takes a request made with [used]:
    a route for GET serves HEAD too. *)
Definition handles (m used : Method) : bool :=
  method_eqb m used || (method_eqb m GET && method_eqb used HEAD).

(** The path below a mount point: [prefix] has to end at a path boundary,
    and the path handed to the router starts with a slash. *)
Definition below (prefix p : string) : option string :=
  if String.prefix (lower prefix) (lower p) then
    match String.substring (String.length prefix)
                           (String.length p - String.length prefix) p with
    | EmptyString => Some "/"
    | String "/" rest => Some (String "/" rest)
    | _ => None
    end
  else None.

Fixpoint find_route (router : RouteTable) (m : Method) (p : string)
  : option Handler :=
  match router with
  | [] => None
  | (m', p', h) :: rest =>
      if handles m' m && route_matches p' p then Some h
      else find_route rest m p
  end.

(** The answer to a HEAD request carries no body. *)
Definition headless (req : Request) (res : Response) : Response :=
  if method_eqb (method req) HEAD
  then {| status := status res; payload := JUndefined |}
  else res.

(** A handler run for [req]. *)
Definition handled (req : Request) (h : Handler)
  : M Process JSValue Response :=
  res <- h req ;; ret (headless req res).

(** One request through the stack. *)
Fixpoint dispatch (stack : list Layer) (req : Request)
  : M Process JSValue Response :=
  match stack with
  | [] => ret notFound
  | Use middleware :: rest =>
      match middleware req with
      | HandOn req' => dispatch rest req'
      | Answer res logged => fun p => (Normal res, write logged p)
      end
  | Route m p h :: rest =>
      if handles m (method req) && route_matches p (path req)
      then handled req h
      else dispatch rest req
  | Mount prefix router :: rest =>
      match below prefix (path req) with
      | Some sub =>
          match find_route router (method req) sub with
          | Some h => handled req h
          | None => dispatch rest req
          end
      | None => dispatch rest req
      end
  end.

(** The requests [app] routes to its greeting and to the review controller. *)
Definition to_root (req : Request) : bool :=
  handles GET (method req) && route_matches "/" (path req).

Definition to_review (req : Request) : bool :=
  match below "/api/ai" (path req) with
  | Some sub =>
      handles POST (method req) && route_matches "/get-review" sub
  | None => false
  end.

(** What [express.json()] makes of a request: it stores the parsed body in
    [req.body] and the request goes on, or it refuses the body; the request
    then gets the error answer [answer] (400 for a text that is not JSON),
    the error may be written to the console, and no route sees the
    request. *)
Inductive Parse : Type :=
| Stored (body : JSValue)
| Refused (answer : Response) (logged : list (list JSValue)).

Definition with_body (b : JSValue) (req : Request) : Request :=
  {| method := method req; path := path req; headers := headers req;
     content := content req; body := b |}.

(** The answer of [cors()] to a preflight request. *)
Definition preflight : Response := {| status := 204; payload := JUndefined |}.

(** [cors()] with no options: a preflight request is answered here, any
    other request goes on. *)
Definition cors : Middleware :=
  fun req =>
    if method_eqb (method req) OPTIONS then Answer preflight []
    else HandOn req.

Section Service.

(** The JSON parser behind [express.json()]. *)
Variable parse_json : Request -> Parse.

(** The generative-language API behind [model.generateContent]: what the
    call resolves to or rejects with, given everything the process has done
    before. *)
Variable gemini :
  list Event -> GenerativeModel -> JSValue ->
  Completion JSValue GenerateContentResult.

(** [express.json()] *)
Definition express_json : Middleware :=
  fun req =>
    match parse_json req with
    | Stored b => HandOn (with_body b req)
    | Refused answer logged => Answer answer logged
    end.

(** [model.generateContent(prompt)] *)
Definition model_generateContent (prompt : JSValue)
  : M Process JSValue GenerateContentResult :=
  fun p =>
    (gemini (events p) (model p) prompt,
     emit (GenerateContentCall (model p) prompt) p).

(** [console.error(...args)] *)
Definition console_error (args : list JSValue) : M Process JSValue unit :=
  modify (emit (ConsoleError args)).

(** [async function generateContent(prompt)] *)
Definition generateContent (prompt : JSValue) : M Process JSValue string :=
  try_catch
    (result <- model_generateContent prompt ;;
     response <- lift (text (response result) tt) ;;
     ret response)
    (fun error =>
       console_error [JString "Error generating content:"; error] ;;;
       throw error).

(** Modelled from the spec: the review controller and the router mounted at
    /api/ai (routes/ai.route.js and the controller it binds are not among the
    sources). It reads [code] from the JSON body without validating it, hands
    it to [generateContent], whose [model] wraps every prompt in the fixed
    template, and sends the generated text back as it is; a failure of
    [generateContent] is not caught. *)
Definition getReview : Handler :=
  fun req =>
    code <- lift (member (body req) "code") ;;
    response <- generateContent code ;;
    ret (send (JString response)).

(** Modelled from the spec: the review endpoint is POST /api/ai/get-review. *)
Definition aiRoute : RouteTable := [(POST, "/get-review", getReview)].

(** [const app = express()] with its layers. *)
Definition app : list Layer :=
  [ Use express_json;
    Use cors;
    Route GET "/" (fun req => ret (send (JString "hello")));
    Mount "/api/ai" aiRoute ].

(** The requests of a run, served one after the other. *)
Fixpoint serve (reqs : list Request) (p : Process)
  : list (Completion JSValue Response) * Process :=
  match reqs with
  | [] => ([], p)
  | req :: rest =>
      let (r, p') := dispatch app req p in
      let (rs, p'') := serve rest p' in
      (r :: rs, p'')
  end.

End Service.

(** The requests whose path lies at or below the mount point of the review
    router, [app.use('/api/ai', aiRoute)]. *)
Definition under_api (req : Request) : bool :=
  match below "/api/ai" (path req) with
  | Some _ => true
  | None => false
  end.

End Backend.

(** ** The editor client: App.jsx *)

Module Frontend.

(** What [axios.post] resolves to. *)
Record AxiosResponse : Type := {
  data : JSValue;
  status : Z
}.

(** What [axios.post] rejects with: [response] is set when the server
    answered with an error status and is absent when no answer came. *)
Record AxiosError : Type := {
  message : string;
  response : option AxiosResponse
}.

Inductive AxiosOutcome : Type :=
| Fulfilled (r : AxiosResponse)
| Rejected (e : AxiosError).

(** The two [useState] cells of the component. *)
Record AppState : Type := {
  code : string;
  review : JSValue
}.

(** [useState(`function sum(){ ... }`)] and [useState('')] *)
Definition initialState : AppState :=
  {| code := "function sum(){
    return 1+1}";
     review := JString "" |}.

Inductive BrowserEvent : Type :=
| ConsoleLog (args : list JSValue)
| ConsoleError (args : list JSValue)
| HttpPost (url : string) (payload : JSValue).

(** The page: the state of the component and what it has logged and sent,
    oldest first. *)
Record Browser : Type := {
  state : AppState;
  trace : list BrowserEvent
}.

Definition emit (e : BrowserEvent) (w : Browser) : Browser :=
  {| state := state w; trace := trace w ++ [e] |}.

(** The HTTP requests among the events, in order. *)
Fixpoint posts (evs : list BrowserEvent) : list (string * JSValue) :=
  match evs with
  | [] => []
  | HttpPost url payload :: rest => (url, payload) :: posts rest
  | _ :: rest => posts rest
  end.

(** [setCode(v)] and [setReview(v)] *)
Definition setCode (v : string) (w : Browser) : Browser :=
  {| state := {| code := v; review := review (state w) |};
     trace := trace w |}.

Definition setReview (v : JSValue) (w : Browser) : Browser :=
  {| state := {| code := code (state w); review := v |};
     trace := trace w |}.

(** What the component renders: the editor holds [code], the markdown area
    holds [review]. *)
Record View : Type := {
  editorValue : string;
  markdownChildren : JSValue
}.

Definition App (s : AppState) : View :=
  {| editorValue := code s; markdownChildren := review s |}.

(** [error.response?.data] *)
Definition response_data (error : AxiosError) : JSValue :=
  match response error with
  | Some r => data r
  | None => JUndefined
  end.

Definition reviewEndpoint : string := "http://localhost:3000/api/ai/get-review".

Section Client.

(** The HTTP exchange behind [axios.post(url, payload)]. *)
Variable axios_post : string -> JSValue -> AxiosOutcome.

Definition post (url : string) (payload : JSValue)
  : M Browser AxiosError AxiosResponse :=
  fun w =>
    (match axios_post url payload with
     | Fulfilled r => Normal r
     | Rejected e => Thrown e
     end,
     emit (HttpPost url payload) w).

(** [async function reviewCode()] *)
Definition reviewCode : M Browser AxiosError unit :=
  try_catch
    (code <- gets (fun w => code (state w)) ;;
     modify (emit (ConsoleLog [JString "Sending code for review:";
                               JString code])) ;;;
     response <- post reviewEndpoint (JObject [("code", JString code)]) ;;
     modify (setReview (data response)))
    (fun error =>
       modify (emit (ConsoleError
                       [JString "Error reviewing code:";
                        js_or (response_data error)
                              (JString (message error))]))).

End Client.

(** [reviewCode] up to its [await]: the line on the console and the
    request, made with the buffer of the moment. *)
Definition reviewCode_sent (w : Browser) : Browser :=
  emit (HttpPost reviewEndpoint (JObject [("code", JString (code (state w)))]))
       (emit (ConsoleLog [JString "Sending code for review:";
                          JString (code (state w))]) w).

(** [reviewCode] from its [await] on, once the request has settled with
    [outcome]; it runs on the page as it is by then. *)
Definition reviewCode_settled (outcome : AxiosOutcome) (w : Browser)
  : Browser :=
  match outcome with
  | Fulfilled response => setReview (data response) w
  | Rejected error =>
      emit (ConsoleError [JString "Error reviewing code:";
                          js_or (response_data error)
                                (JString (message error))]) w
  end.

(** What happens to the page: the user edits the buffer
    ([onValueChange={code => setCode(code)}]), the user clicks the review
    button ([onClick={reviewCode}], which runs up to the [await] and leaves
    the button in place), or a request made by an earlier click settles
    with [outcome] and its [reviewCode] goes on. Requests may settle in any
    order. *)
Inductive Occurrence : Type :=
| ValueChange (newCode : string)
| Click
| Settled (outcome : AxiosOutcome).

Definition step (w : Browser) (o : Occurrence) : Browser :=
  match o with
  | ValueChange newCode => setCode newCode w
  | Click => reviewCode_sent w
  | Settled outcome => reviewCode_settled outcome w
  end.

Definition run (os : list Occurrence) (w : Browser) : Browser :=
  fold_left step os w.

(** The page when the component is first mounted. *)
Definition mounted : Browser := {| state := initialState; trace := [] |}.

(** A request is answered: it settles with a response. *)
Definition answered (o : Occurrence) : bool :=
  match o with
  | Settled (Fulfilled _) => true
  | _ => false
  end.

(** [function sum(){ return 1+1 }], the helper beside the component. *)
Definition sum : JSValue := JNumber (1 + 1).

(** An occurrence of a review request: its click or its settling. *)
Definition of_review (o : Occurrence) : bool :=
  match o with
  | ValueChange _ => false
  | Click | Settled _ => true
  end.

(** The requests the clicks of [os] are to send when the editor holds
    [buffer] at the start: one for each click, with the buffer of that
    moment. *)
Fixpoint requests (os : list Occurrence) (buffer : string)
  : list (string * JSValue) :=
  match os with
  | [] => []
  | ValueChange newCode :: rest => requests rest newCode
  | Click :: rest =>
      (reviewEndpoint, JObject [("code", JString buffer)])
      :: requests rest buffer
  | Settled _ :: rest => requests rest buffer
  end.

(** The lines written with [console.error] among the events, in order. *)
Fixpoint failures (evs : list BrowserEvent) : list (list JSValue) :=
  match evs with
  | [] => []
  | ConsoleError args :: rest => args :: failures rest
  | _ :: rest => failures rest
  end.

(** The line [reviewCode] writes for a failed request. *)
Definition failure_line (e : AxiosError) : list JSValue :=
  [JString "Error reviewing code:";
   js_or (response_data e) (JString (message e))].

(** The lines the requests of [os] that fail are to leave on the console,
    in the order the failures arrive. *)
Definition failure_lines (os : list Occurrence) : list (list JSValue) :=
  flat_map (fun o =>
              match o with
              | Settled (Rejected e) => [failure_line e]
              | _ => []
              end) os.

End Frontend.

(** ** Sample environments and requests *)

Module Scenario.
Import Backend.

(** An API that answers every prompt with the text [t]. *)
Definition answering (t : string)
  : list Event -> GenerativeModel -> JSValue ->
    Completion JSValue GenerateContentResult :=
  fun _ _ _ => Normal {| response := {| text := fun _ => Normal t |} |}.

(** An API that rejects every call with [e]. *)
Definition rejecting (e : JSValue)
  : list Event -> GenerativeModel -> JSValue ->
    Completion JSValue GenerateContentResult :=
  fun _ _ _ => Thrown e.

(** An API whose responses carry no text: [text()] throws [e]. *)
Definition blocked (e : JSValue)
  : list Event -> GenerativeModel -> JSValue ->
    Completion JSValue GenerateContentResult :=
  fun _ _ _ => Normal {| response := {| text := fun _ => Thrown e |} |}.

(** The JSON text of [{ code }], for a [code] of plain characters. *)
Definition json_of_code (code : string) : string :=
  let quote := String (ascii_of_nat 34) EmptyString in
  ("{" ++ quote ++ "code" ++ quote ++ ":" ++ quote ++ code ++ quote ++ "}")%string.

(** POST [path] with the body [{ code }], as the client sends it. *)
Definition reviewRequestAt (path code : string) : Request :=
  {| method := POST;
     path := path;
     headers := [("content-type", "application/json")];
     content := json_of_code code;
     body := JObject [("code", JString code)] |}.

(** POST /api/ai/get-review with the body [{ code }]. *)
Definition reviewRequest (code : string) : Request :=
  reviewRequestAt "/api/ai/get-review" code.



(** The answer to a request whose body is refused. *)
Definition badRequest : Response :=
  {| status := 400; payload := JString "Bad Request" |}.

(** A parser for these runs: the text "{" is refused with 400 and the
    error is written to the console, as [express.json()] does with a text
    that is no JSON document; any other request goes on with the body it
    carries, which stands for what is read from its content. *)
Definition parser (req : Request) : Parse :=
  if String.eqb (content req) "{"
  then Refused badRequest [[JString "SyntaxError"]]
  else Stored (body req).

(** A server that answers 200 with [body], and one that cannot be reached. *)
Definition ok (body : JSValue) : Frontend.AxiosOutcome :=
  Frontend.Fulfilled {| Frontend.data := body; Frontend.status := 200 |}.

Definition networkError : Frontend.AxiosOutcome :=
  Frontend.Rejected {| Frontend.message := "Network Error";
                       Frontend.response := None |}.

(** A server that answers 500 with [body]. *)
Definition serverError (body : JSValue) : Frontend.AxiosOutcome :=
  Frontend.Rejected
    {| Frontend.message := "Request failed with status code 500";
       Frontend.response :=
         Some {| Frontend.data := body; Frontend.status := 500 |} |}.

End Scenario.

(** * Properties *)

(** ** Strings *)

Lemma prefix_iff (a b : string) :
  String.prefix a b = true <-> exists rest, b = (a ++ rest)%string.
Proof.
  revert b; induction a as [|c a IH]; intros [|d b]; simpl;
    try (split; eauto; fail).
  - split; [discriminate | intros [rest H]; discriminate].
  - destruct (ascii_dec c d) as [->|Hne].
    + split.
      * intros H; apply IH in H; destruct H as [rest ->]; now exists rest.
      * intros [rest H]; apply IH; exists rest; now injection H.
    + split; [discriminate|].
      intros [rest H]; injection H; intros _ Heq; congruence.
Qed.

Lemma prefix_refl (s : string) : String.prefix s s = true.
Proof.
  apply prefix_iff; exists ""; induction s; simpl; congruence.
Qed.

Lemma includes_refl (s : string) : includes s s = true.
Proof.
  destruct s; simpl; [reflexivity|].
  apply orb_true_iff; left.
  destruct (ascii_dec a a); [apply prefix_refl | congruence].
Qed.

(** [includes] finds exactly the contiguous occurrences. *)
Lemma includes_iff (needle hay : string) :
  includes needle hay = true <->
  exists before after, hay = (before ++ needle ++ after)%string.
Proof.
  induction hay as [|c hay IH].
  - cbn [includes]; rewrite orb_false_r, prefix_iff; split.
    + intros [rest H]; exists "", rest; exact H.
    + intros [[|b before] [after H]]; [eauto | discriminate].
  - cbn [includes]; rewrite orb_true_iff, prefix_iff, IH; split.
    + intros [[rest H] | [before [after H]]].
      * exists "", rest; exact H.
      * exists (String c before), after; simpl; now rewrite H.
    + intros [[|b before] [after H]].
      * left; exists after; exact H.
      * right; exists before, after; simpl in H; now injection H.
Qed.

(** ** The backend *)

Module BackendFacts.
Import Backend.

Lemma calls_app (a b : list Event) : calls (a ++ b) = calls a ++ calls b.
Proof.
  induction a as [|[m prompt|args] a IH]; simpl; now rewrite ?IH.
Qed.

Section WithApi.

Variable parse_json : Request -> Parse.

Variable gemini :
  list Event -> GenerativeModel -> JSValue ->
  Completion JSValue GenerateContentResult.

(** What one run of [generateContent] comes to, case by case. *)
Lemma generateContent_run (prompt : JSValue) (p : Process) :
  generateContent gemini prompt p =
  let called := emit (GenerateContentCall (model p) prompt) p in
  let failed error :=
    (Thrown error,
     emit (ConsoleError [JString "Error generating content:"; error]) called)
  in
  match gemini (events p) (model p) prompt with
  | Normal result =>
      match text (response result) tt with
      | Normal t => (Normal t, called)
      | Thrown error => failed error
      end
  | Thrown error => failed error
  end.
Proof.
  unfold generateContent, try_catch, bind, model_generateContent, lift.
  destruct (gemini (events p) (model p) prompt) as [result|error];
    [destruct (text (response result) tt)|]; reflexivity.
Qed.

(** [generateContent] leaves [model] as it is and adds one call, made on the
    [model] of the process. *)
Lemma generateContent_frame (prompt : JSValue) (p : Process) :
  let p' := snd (generateContent gemini prompt p) in
  model p' = model p /\
  exists new, events p' = events p ++ new /\
              calls new = [(model p, prompt)].
Proof.
  rewrite generateContent_run; cbv zeta.
  destruct (gemini (events p) (model p) prompt) as [result|error];
    [destruct (text (response result) tt)|]; simpl; split; try reflexivity.
  - now exists [GenerateContentCall (model p) prompt].
  - rewrite <- app_assoc; eexists; split; [reflexivity|reflexivity].
  - rewrite <- app_assoc; eexists; split; [reflexivity|reflexivity].
Qed.

(** What one run of the review controller comes to. *)
Lemma getReview_run (req : Request) (p : Process) :
  getReview gemini req p =
  match member (body req) "code" with
  | Normal code =>
      match generateContent gemini code p with
      | (Normal t, p') => (Normal (send (JString t)), p')
      | (Thrown error, p') => (Thrown error, p')
      end
  | Thrown error => (Thrown error, p)
  end.
Proof.
  unfold getReview, bind, lift, ret.
  destruct (member (body req) "code"); [|reflexivity].
  destruct (generateContent gemini a p) as [[t|error] p']; reflexivity.
Qed.

(** The routing of [app], layer by layer. *)
Lemma dispatch_app (req : Request) (p : Process) :
  dispatch (app parse_json gemini) req p =
  match parse_json req with
  | Refused answer logged => (Normal answer, write logged p)
  | Stored b =>
      let req' := with_body b req in
      if method_eqb (method req) OPTIONS then (Normal preflight, write [] p)
      else if to_root req'
      then (Normal (headless req' (send (JString "hello"))), p)
      else if to_review req' then handled req' (getReview gemini) p
      else (Normal notFound, p)
  end.
Proof.
  unfold app; cbn [dispatch]; unfold express_json.
  destruct (parse_json req) as [b|answer logged]; [|reflexivity].
  cbv zeta; unfold cors; cbn [method with_body].
  destruct (method_eqb (method req) OPTIONS); [reflexivity|].
  unfold to_root, to_review; cbn [dispatch method path with_body].
  destruct (handles GET (method req) && route_matches "/" (path req));
    [reflexivity|].
  destruct (below "/api/ai" (path req)) as [sub|]; [|reflexivity].
  cbn [aiRoute find_route].
  destruct (handles POST (method req) && route_matches "/get-review" sub);
    reflexivity.
Qed.

(** The application hands POST /api/ai/get-review, once its body is parsed,
    to the review controller. *)
Lemma dispatch_review (req : Request) (b : JSValue) (p : Process) :
  method req = POST -> path req = "/api/ai/get-review" ->
  parse_json req = Stored b ->
  dispatch (app parse_json gemini) req p =
  getReview gemini (with_body b req) p.
Proof.
  intros Hm Hp Hb; rewrite dispatch_app, Hb; cbv zeta.
  assert (Hroot : to_root (with_body b req) = false).
  { unfold to_root; cbn [method path with_body]; now rewrite Hm, Hp. }
  assert (Hrev : to_review (with_body b req) = true).
  { unfold to_review; cbn [method path with_body]; now rewrite Hm, Hp. }
  rewrite Hm, Hroot, Hrev; cbn [method_eqb].
  unfold handled, headless, bind, ret; cbn [method with_body]; rewrite Hm.
  destruct (getReview gemini (with_body b req) p) as [[res|error] p'];
    reflexivity.
Qed.

(** Serving a request leaves [model] as it is, and every call it adds is
    made on that [model]. *)
Lemma dispatch_frame (req : Request) (p : Process) :
  let p' := snd (dispatch (app parse_json gemini) req p) in
  model p' = model p /\
  exists new, events p' = events p ++ new /\
              Forall (fun c => fst c = model p) (calls new).
Proof.
  assert (Hstay : model p = model p /\
                  exists new, events p = events p ++ new /\
                              Forall (fun c => fst c = model p) (calls new)).
  { split; [reflexivity|]; exists []; now rewrite app_nil_r. }
  assert (Hwrite : forall lines,
             model (write lines p) = model p /\
             exists new, events (write lines p) = events p ++ new /\
                         Forall (fun c => fst c = model p) (calls new)).
  { intros lines; split; [reflexivity|].
    exists (map ConsoleError lines); split; [reflexivity|].
    induction lines; simpl; auto. }
  rewrite dispatch_app.
  destruct (parse_json req) as [b|answer logged]; [|apply Hwrite].
  cbv zeta.
  destruct (method_eqb (method req) OPTIONS); [apply Hwrite|].
  destruct (to_root (with_body b req)); [exact Hstay|].
  destruct (to_review (with_body b req)); [|exact Hstay].
  unfold handled, bind, ret; rewrite getReview_run.
  destruct (member (body (with_body b req)) "code") as [code|error];
    [|exact Hstay].
  pose proof (generateContent_frame code p) as [Hmodel [new [Hev Hcalls]]].
  destruct (generateContent gemini code p) as [[t|error] p']; simpl in *;
    (split; [exact Hmodel|]); exists new; (split; [exact Hev|]);
    rewrite Hcalls; repeat constructor.
Qed.

Lemma serve_frame (reqs : list Request) (p : Process) :
  let p' := snd (serve parse_json gemini reqs p) in
  model p' = model p /\
  exists new, events p' = events p ++ new /\
              Forall (fun c => fst c = model p) (calls new).
Proof.
  revert p; induction reqs as [|req reqs IH]; intros p; cbn [serve].
  - simpl; split; [reflexivity|]; exists []; now rewrite app_nil_r.
  - pose proof (dispatch_frame req p) as [Hm1 [new1 [He1 Hc1]]].
    destruct (dispatch (app parse_json gemini) req p) as [r p1];
      simpl in Hm1, He1.
    pose proof (IH p1) as [Hm2 [new2 [He2 Hc2]]].
    destruct (serve parse_json gemini reqs p1) as [rs p2]; simpl in *.
    split; [congruence|].
    exists (new1 ++ new2); split.
    + now rewrite He2, He1, app_assoc.
    + rewrite calls_app; apply Forall_app; split; [exact Hc1|].
      rewrite <- Hm1; exact Hc2.
Qed.

(** C1. Every request whose [code] field is a non-empty string makes the
    review service call the model client exactly once, and the prompt of that
    call contains the submitted code. *)
Theorem review_calls_model_once (req : Request) (code : string) (p : Process) :
  member (body req) "code" = Normal (JString code) ->
  code <> "" ->
  exists prompt,
    calls (events (snd (getReview gemini req p))) =
      calls (events p) ++ [(model p, JString prompt)] /\
    includes code prompt = true.
Proof.
  intros Hcode _; exists code; split; [|apply includes_refl].
  rewrite getReview_run, Hcode.
  pose proof (generateContent_frame (JString code) p) as [_ [new [Hev Hcalls]]].
  destruct (generateContent gemini (JString code) p) as [[t|error] p'];
    simpl in *; now rewrite Hev, calls_app, Hcalls.
Qed.

(** C2. When the call of the API succeeds, [generateContent] returns the text
    of the model, and the review service sends that very text, unchanged. *)
Theorem review_returns_text_verbatim
    (req : Request) (prompt : JSValue) (p : Process)
    (result : GenerateContentResult) (t : string) :
  member (body req) "code" = Normal prompt ->
  gemini (events p) (model p) prompt = Normal result ->
  text (response result) tt = Normal t ->
  fst (generateContent gemini prompt p) = Normal t /\
  fst (getReview gemini req p) = Normal (send (JString t)) /\
  payload (send (JString t)) = JString t.
Proof.
  intros Hcode Hcall Htext.
  assert (Hgen : generateContent gemini prompt p =
                 (Normal t, emit (GenerateContentCall (model p) prompt) p)).
  { rewrite generateContent_run; cbv zeta; now rewrite Hcall, Htext. }
  repeat split.
  - now rewrite Hgen.
  - now rewrite getReview_run, Hcode, Hgen.
Qed.

(** C3. [generateContent] calls the API exactly once for every prompt; it
    returns the generated text when the call succeeds and throws the error of
    the call when it fails, be it the request or the reading of the text. *)
Theorem generateContent_single_attempt (prompt : JSValue) (p : Process) :
  let outcome := fst (generateContent gemini prompt p) in
  let p' := snd (generateContent gemini prompt p) in
  calls (events p') = calls (events p) ++ [(model p, prompt)] /\
  (forall result t,
      gemini (events p) (model p) prompt = Normal result ->
      text (response result) tt = Normal t ->
      outcome = Normal t) /\
  (forall error,
      gemini (events p) (model p) prompt = Thrown error ->
      outcome = Thrown error) /\
  (forall result error,
      gemini (events p) (model p) prompt = Normal result ->
      text (response result) tt = Thrown error ->
      outcome = Thrown error).
Proof.
  cbv zeta; split.
  - pose proof (generateContent_frame prompt p) as [_ [new [Hev Hcalls]]].
    simpl in Hev; now rewrite Hev, calls_app, Hcalls.
  - rewrite generateContent_run; cbv zeta.
    repeat split.
    + intros result t -> ->; reflexivity.
    + intros error ->; reflexivity.
    + intros result error -> ->; reflexivity.
Qed.

(** C7. The prompt template is one constant of the process: no request served
    and no call of [generateContent] changes the [model] that holds it, and
    in every run from the start of the process the [model] still carries the
    template and every call of the model client is made with it. *)
Theorem template_never_written :
  (forall req p,
      model (snd (dispatch (app parse_json gemini) req p)) = model p) /\
  (forall prompt p, model (snd (generateContent gemini prompt p)) = model p) /\
  (forall reqs,
      let p := snd (serve parse_json gemini reqs boot) in
      systemInstruction (model p) = PromptTemplate /\
      Forall (fun c => systemInstruction (fst c) = PromptTemplate)
             (calls (events p))).
Proof.
  split; [|split].
  - intros req p; apply dispatch_frame.
  - intros prompt p; apply generateContent_frame.
  - intros reqs; cbv zeta.
    pose proof (serve_frame reqs boot) as [Hmodel [new [Hev Hcalls]]].
    simpl in Hmodel, Hev; split.
    + now rewrite Hmodel.
    + rewrite Hev; cbn [boot events app calls].
      eapply Forall_impl; [|exact Hcalls].
      intros c ->; reflexivity.
Qed.


End WithApi.

(** *** The theorems at sample runs *)

Lemma review_calls_model_once_witness :
  exists prompt,
    calls (events (snd (getReview (Scenario.answering "Looks fine.")
                                  (Scenario.reviewRequest "function sum(){ return 1+1 }")
                                  boot))) =
      calls (events boot) ++ [(model boot, JString prompt)] /\
    includes "function sum(){ return 1+1 }" prompt = true.
Proof.
  apply (review_calls_model_once
           (Scenario.answering "Looks fine.")
           (Scenario.reviewRequest "function sum(){ return 1+1 }")
           "function sum(){ return 1+1 }" boot).
  - reflexivity.
  - discriminate.
Defined.

Lemma review_returns_text_verbatim_witness :
  fst (generateContent (Scenario.answering "## Review") (JString "x = 1") boot)
    = Normal "## Review" /\
  fst (getReview (Scenario.answering "## Review")
                 (Scenario.reviewRequest "x = 1") boot)
    = Normal (send (JString "## Review")) /\
  payload (send (JString "## Review")) = JString "## Review".
Proof.
  apply (review_returns_text_verbatim
           (Scenario.answering "## Review") (Scenario.reviewRequest "x = 1")
           (JString "x = 1") boot
           {| response := {| text := fun _ => Normal "## Review" |} |}
           "## Review");
    reflexivity.
Defined.

Lemma generateContent_single_attempt_witness :
  fst (generateContent (Scenario.answering "ok") (JString "x") boot)
    = Normal "ok" /\
  fst (generateContent (Scenario.rejecting (JString "quota")) (JString "x") boot)
    = Thrown (JString "quota") /\
  fst (generateContent (Scenario.blocked (JString "no text")) (JString "x") boot)
    = Thrown (JString "no text").
Proof.
  split; [|split].
  - apply (proj1 (proj2 (generateContent_single_attempt
                           (Scenario.answering "ok") (JString "x") boot))
             {| response := {| text := fun _ => Normal "ok" |} |} "ok");
      reflexivity.
  - apply (proj1 (proj2 (proj2 (generateContent_single_attempt
                                  (Scenario.rejecting (JString "quota"))
                                  (JString "x") boot)))
             (JString "quota"));
      reflexivity.
  - apply (proj2 (proj2 (proj2 (generateContent_single_attempt
                                  (Scenario.blocked (JString "no text"))
                                  (JString "x") boot)))
             {| response := {| text := fun _ => Thrown (JString "no text") |} |}
             (JString "no text"));
      reflexivity.
Defined.



End BackendFacts.

(** ** The editor client *)

Module FrontendFacts.
Import Frontend.

Lemma posts_app (a b : list BrowserEvent) : posts (a ++ b) = posts a ++ posts b.
Proof.
  induction a as [|[args|args|url payload] a IH]; simpl; now rewrite ?IH.
Qed.

Section WithServer.

Variable axios_post : string -> JSValue -> AxiosOutcome.

(** What one run of [reviewCode] comes to, by the outcome of the request. *)
Lemma reviewCode_run (w : Browser) :
  let payload := JObject [("code", JString (code (state w)))] in
  let sent :=
    emit (HttpPost reviewEndpoint payload)
         (emit (ConsoleLog [JString "Sending code for review:";
                            JString (code (state w))]) w) in
  reviewCode axios_post w =
  match axios_post reviewEndpoint payload with
  | Fulfilled r => (Normal tt, setReview (data r) sent)
  | Rejected e =>
      (Normal tt,
       emit (ConsoleError [JString "Error reviewing code:";
                           js_or (response_data e) (JString (message e))])
            sent)
  end.
Proof.
  unfold reviewCode, try_catch, bind, gets, modify, post; simpl.
  destruct (axios_post reviewEndpoint _); reflexivity.
Qed.

(** C4. When the review request fails, whatever the error, the client logs it
    to the console and nothing of its state changes: the review shown stays
    what it was and the rendered page is the same, with no sign of the
    failure. *)
Theorem review_failure_keeps_display (w : Browser) (e : AxiosError) :
  axios_post reviewEndpoint (JObject [("code", JString (code (state w)))])
    = Rejected e ->
  let w' := snd (reviewCode axios_post w) in
  state w' = state w /\
  App (state w') = App (state w) /\
  trace w' =
    trace w ++
    [ConsoleLog [JString "Sending code for review:";
                 JString (code (state w))];
     HttpPost reviewEndpoint (JObject [("code", JString (code (state w)))]);
     ConsoleError [JString "Error reviewing code:";
                   js_or (response_data e) (JString (message e))]].
Proof.
  intros Hfail; cbv zeta; rewrite reviewCode_run; cbv zeta; rewrite Hfail.
  simpl; repeat split.
  now rewrite <- !app_assoc.
Qed.

(** C5. When the review request succeeds, the review state becomes the body
    of the response, so that the markdown area renders exactly that body. *)
Theorem review_success_shows_body (w : Browser) (r : AxiosResponse) :
  axios_post reviewEndpoint (JObject [("code", JString (code (state w)))])
    = Fulfilled r ->
  let w' := snd (reviewCode axios_post w) in
  review (state w') = data r /\
  markdownChildren (App (state w')) = data r /\
  editorValue (App (state w')) = editorValue (App (state w)).
Proof.
  intros Hok; cbv zeta; rewrite reviewCode_run; cbv zeta; rewrite Hok.
  repeat split.
Qed.

(** C6. Whatever the editor holds, the empty string and ill-formed programs
    included, the client sends one request whose [code] field is that very
    string: nothing is checked and nothing is changed. *)
Theorem review_sends_buffer_unmodified (w : Browser) :
  posts (trace (snd (reviewCode axios_post w))) =
  posts (trace w) ++
  [(reviewEndpoint,
    JObject [("code", JString (editorValue (App (state w))))])].
Proof.
  rewrite reviewCode_run; cbv zeta.
  destruct (axios_post reviewEndpoint _); simpl;
    rewrite !posts_app; simpl; now rewrite !app_nil_r.
Qed.

(** C9. [reviewCode] completes normally for every outcome of the HTTP call:
    it never ends with an exception. *)
Theorem reviewCode_never_throws (w : Browser) :
  fst (reviewCode axios_post w) = Normal tt.
Proof.
  rewrite reviewCode_run; cbv zeta.
  destruct (axios_post reviewEndpoint _); reflexivity.
Qed.

(** One call of [reviewCode] is its part before the [await] followed by
    its part after it, at the outcome of the request it has made. *)
Lemma reviewCode_split (w : Browser) :
  snd (reviewCode axios_post w) =
  reviewCode_settled
    (axios_post reviewEndpoint (JObject [("code", JString (code (state w)))]))
    (reviewCode_sent w).
Proof.
  rewrite reviewCode_run; cbv zeta.
  destruct (axios_post reviewEndpoint _); reflexivity.
Qed.

End WithServer.

(** A step that is not an answered review leaves the review state alone. *)
Lemma step_keeps_review (w : Browser) (o : Occurrence) :
  answered o = false -> review (state (step w o)) = review (state w).
Proof.
  destruct o as [newCode| |[r|e]]; intros H;
    [reflexivity | reflexivity | discriminate H | reflexivity].
Qed.

Lemma run_keeps_review (os : list Occurrence) (w : Browser) :
  existsb answered os = false ->
  review (state (run os w)) = review (state w).
Proof.
  revert w; induction os as [|o os IH]; intros w; simpl; [reflexivity|].
  intros H; apply orb_false_iff in H as [Ho Hos].
  unfold run in IH; rewrite IH by exact Hos.
  now apply step_keeps_review.
Qed.

(** C10. The review state starts as the empty string, and as long as no
    review request has been answered the markdown area renders the empty
    string, whatever the user has typed and however many requests failed. *)
Theorem review_initially_empty :
  review initialState = JString "" /\
  markdownChildren (App (state mounted)) = JString "" /\
  forall os,
    existsb answered os = false ->
    markdownChildren (App (state (run os mounted))) = JString "".
Proof.
  repeat split.
  intros os H; simpl; now rewrite run_keeps_review.
Qed.

(** *** The theorems at sample runs *)

Lemma review_failure_keeps_display_witness :
  let w' := snd (reviewCode (fun _ _ => Scenario.serverError (JString ""))
                            mounted) in
  state w' = initialState /\
  App (state w') = App initialState /\
  trace w' =
    [ConsoleLog [JString "Sending code for review:";
                 JString (code initialState)];
     HttpPost reviewEndpoint (JObject [("code", JString (code initialState))]);
     ConsoleError [JString "Error reviewing code:";
                   JString "Request failed with status code 500"]].
Proof.
  apply (review_failure_keeps_display
           (fun _ _ => Scenario.serverError (JString "")) mounted
           {| message := "Request failed with status code 500";
              response := Some {| data := JString ""; status := 500 |} |}).
  reflexivity.
Defined.

Lemma review_success_shows_body_witness :
  let w' := snd (reviewCode (fun _ _ => Scenario.ok (JString "## Review"))
                            mounted) in
  review (state w') = JString "## Review" /\
  markdownChildren (App (state w')) = JString "## Review" /\
  editorValue (App (state w')) = editorValue (App (state mounted)).
Proof.
  apply (review_success_shows_body
           (fun _ _ => Scenario.ok (JString "## Review")) mounted
           {| data := JString "## Review"; status := 200 |}).
  reflexivity.
Defined.

Lemma review_initially_empty_witness :
  markdownChildren
    (App (state (run [ValueChange "";
                      Click;
                      Click;
                      Settled (Scenario.serverError (JString "quota"));
                      ValueChange "let x";
                      Settled Scenario.networkError]
                     mounted)))
  = JString "".
Proof.
  apply (proj2 (proj2 review_initially_empty)).
  reflexivity.
Defined.

End FrontendFacts.

(** ** More on the backend *)

Module ServiceFacts.
Import Backend.

Section WithApi.

Variable parse_json : Request -> Parse.

Variable gemini :
  list Event -> GenerativeModel -> JSValue ->
  Completion JSValue GenerateContentResult.

(** X1. What [generateContent] logs: when it returns, the call is the only
    event it has added; when it throws, it has written one [console.error]
    line after the call, with the very error it throws. *)
Theorem generateContent_logs_what_it_throws (prompt : JSValue) (p : Process) :
  let outcome := fst (generateContent gemini prompt p) in
  let p' := snd (generateContent gemini prompt p) in
  (forall t,
      outcome = Normal t ->
      events p' = events p ++ [GenerateContentCall (model p) prompt]) /\
  (forall error,
      outcome = Thrown error ->
      events p' =
        events p ++
        [GenerateContentCall (model p) prompt;
         ConsoleError [JString "Error generating content:"; error]]).
Proof.
  cbv zeta; rewrite BackendFacts.generateContent_run; cbv zeta.
  destruct (gemini (events p) (model p) prompt) as [result|e];
    [destruct (text (response result) tt) as [t'|e]|]; simpl; split;
    intros x Hx; try discriminate Hx; try reflexivity;
    injection Hx as <-; now rewrite <- app_assoc.
Qed.

(** X2. A request whose path is not at or below /api/ai never reaches the
    model, whatever the body parser makes of it: serving it adds no call of
    the model client and does not end in an exception. *)
Theorem outside_api_never_calls_model (req : Request) (p : Process) :
  under_api req = false ->
  calls (events (snd (dispatch (app parse_json gemini) req p)))
    = calls (events p) /\
  exists res, fst (dispatch (app parse_json gemini) req p) = Normal res.
Proof.
  intros Hout; rewrite BackendFacts.dispatch_app.
  assert (Hwrite : forall lines,
             calls (events (write lines p)) = calls (events p)).
  { intros lines; cbn [write events]; rewrite BackendFacts.calls_app.
    induction lines as [|line lines IH]; simpl in *; [apply app_nil_r|exact IH]. }
  destruct (parse_json req) as [b|answer logged];
    [|split; [apply Hwrite | eexists; reflexivity]].
  cbv zeta.
  assert (Hrev : to_review (with_body b req) = false).
  { unfold under_api in Hout; unfold to_review; cbn [path with_body].
    destruct (below "/api/ai" (path req)); [discriminate Hout | reflexivity]. }
  rewrite Hrev.
  destruct (method_eqb (method req) OPTIONS);
    [split; [apply Hwrite | eexists; reflexivity]|].
  destruct (to_root (with_body b req)); split;
    solve [reflexivity | eexists; reflexivity].
Qed.

End WithApi.

Lemma generateContent_logs_what_it_throws_witness :
  events (snd (generateContent (Scenario.answering "ok") (JString "x") boot))
    = events boot ++ [GenerateContentCall (model boot) (JString "x")] /\
  events (snd (generateContent (Scenario.blocked (JString "no text"))
                               JUndefined boot))
    = events boot ++
      [GenerateContentCall (model boot) JUndefined;
       ConsoleError [JString "Error generating content:"; JString "no text"]].
Proof.
  split.
  - apply (proj1 (generateContent_logs_what_it_throws
                    (Scenario.answering "ok") (JString "x") boot) "ok").
    reflexivity.
  - apply (proj2 (generateContent_logs_what_it_throws
                    (Scenario.blocked (JString "no text")) JUndefined boot)
             (JString "no text")).
    reflexivity.
Defined.

Lemma outside_api_never_calls_model_witness :
  let req := Scenario.reviewRequestAt "/API" "x" in
  calls (events (snd (dispatch (app Scenario.parser (Scenario.answering "ok"))
                               req boot)))
    = calls (events boot) /\
  exists res,
    fst (dispatch (app Scenario.parser (Scenario.answering "ok")) req boot)
    = Normal res.
Proof.
  apply (outside_api_never_calls_model
           Scenario.parser (Scenario.answering "ok")
           (Scenario.reviewRequestAt "/API" "x") boot).
  reflexivity.
Defined.

End ServiceFacts.

(** ** More on the editor client *)

Module PageFacts.
Import Frontend.

Lemma run_app (a b : list Occurrence) (w : Browser) :
  run (a ++ b) w = run b (run a w).
Proof. unfold run; apply fold_left_app. Qed.

Lemma failures_app (a b : list BrowserEvent) :
  failures (a ++ b) = failures a ++ failures b.
Proof.
  induction a as [|[args|args|url payload] a IH]; simpl; now rewrite ?IH.
Qed.

(** What a step does to the buffer: an edit replaces it, a click and the
    settling of a request keep it. *)
Lemma step_code (w : Browser) (o : Occurrence) :
  code (state (step w o)) =
  match o with
  | ValueChange newCode => newCode
  | Click | Settled _ => code (state w)
  end.
Proof.
  destruct o as [newCode| |[r|e]]; reflexivity.
Qed.

Lemma clicks_keep_code (os : list Occurrence) (w : Browser) :
  forallb of_review os = true ->
  code (state (run os w)) = code (state w).
Proof.
  revert w; induction os as [|o os IH]; intros w H; [reflexivity|].
  simpl in H; apply andb_true_iff in H as [Ho Hos].
  change (run (o :: os) w) with (run os (step w o)).
  rewrite IH by exact Hos; rewrite step_code.
  destruct o; [discriminate Ho | reflexivity | reflexivity].
Qed.

(** X4. The editor always holds what was typed last: review requests,
    answered or failed, never change the buffer, so after any run it is the
    value of the latest edit, and the value it had when nothing was typed. *)
Theorem buffer_is_latest_edit (w : Browser) :
  (forall os,
      forallb of_review os = true ->
      editorValue (App (state (run os w))) = editorValue (App (state w))) /\
  (forall os newCode rest,
      forallb of_review rest = true ->
      editorValue (App (state (run (os ++ ValueChange newCode :: rest) w)))
      = newCode).
Proof.
  split.
  - intros os H; simpl; now apply clicks_keep_code.
  - intros os newCode rest H; simpl.
    rewrite run_app.
    change (run (ValueChange newCode :: rest) (run os w))
      with (run rest (step (run os w) (ValueChange newCode))).
    now rewrite clicks_keep_code.
Qed.

(** X5. The page shows the body of the response that arrived last: when a
    request settles with a response, its body replaces whatever was shown,
    and edits, clicks and failures that come after it leave it in place,
    whatever the order in which the requests were made. *)
Theorem review_is_latest_answer
    (os rest : list Occurrence) (r : AxiosResponse) (w : Browser) :
  existsb answered rest = false ->
  markdownChildren
    (App (state (run (os ++ Settled (Fulfilled r) :: rest) w)))
  = data r.
Proof.
  intros H; simpl; rewrite run_app.
  change (run (Settled (Fulfilled r) :: rest) (run os w))
    with (run rest (step (run os w) (Settled (Fulfilled r)))).
  rewrite FrontendFacts.run_keeps_review by exact H.
  reflexivity.
Qed.

(** X6. Every click sends exactly one request and an edit sends none: the
    requests of a run are, in order, one POST to the review endpoint for
    each click, with the buffer as it was typed by then as [code]. *)
Theorem one_request_per_click (os : list Occurrence) (w : Browser) :
  posts (trace (run os w)) = posts (trace w) ++ requests os (code (state w)).
Proof.
  revert w; induction os as [|o os IH]; intros w.
  - simpl; now rewrite app_nil_r.
  - change (run (o :: os) w) with (run os (step w o)).
    rewrite IH, step_code; destruct o as [newCode| |[r|e]].
    + reflexivity.
    + cbn [step requests reviewCode_sent emit trace].
      rewrite !FrontendFacts.posts_app; simpl.
      rewrite !app_nil_r, <- app_assoc; reflexivity.
    + reflexivity.
    + cbn [step requests reviewCode_settled emit trace].
      rewrite FrontendFacts.posts_app; simpl; now rewrite app_nil_r.
Qed.

(** X7. [reviewCode] writes one [console.error] line for each request that
    fails and none otherwise: the lines it has written in a run are, in the
    order the failures arrive, the lines of the requests that settled with
    an error. *)
Theorem failures_logged_once (os : list Occurrence) (w : Browser) :
  failures (trace (run os w)) = failures (trace w) ++ failure_lines os.
Proof.
  revert w; induction os as [|o os IH]; intros w.
  - simpl; now rewrite app_nil_r.
  - change (run (o :: os) w) with (run os (step w o)).
    rewrite IH; unfold failure_lines; cbn [flat_map].
    destruct o as [newCode| |[r|e]].
    + reflexivity.
    + cbn [step reviewCode_sent emit trace].
      rewrite !failures_app; simpl; now rewrite !app_nil_r.
    + reflexivity.
    + cbn [step reviewCode_settled emit trace].
      rewrite failures_app; simpl; now rewrite <- app_assoc.
Qed.

Section WithServer.

Variable axios_post : string -> JSValue -> AxiosOutcome.

(** X8. What the console shows for a failed request: the body of the error
    response when there is one and it is truthy, and the message of the
    error when no response came or its body is falsy. *)
Theorem failure_detail (w : Browser) (e : AxiosError) :
  axios_post reviewEndpoint (JObject [("code", JString (code (state w)))])
    = Rejected e ->
  exists detail,
    failures (trace (snd (reviewCode axios_post w))) =
      failures (trace w) ++ [[JString "Error reviewing code:"; detail]] /\
    (response e = None -> detail = JString (message e)) /\
    (forall r,
        response e = Some r ->
        detail = if truthy (data r) then data r else JString (message e)).
Proof.
  intros Hfail; rewrite FrontendFacts.reviewCode_run; cbv zeta; rewrite Hfail.
  exists (js_or (response_data e) (JString (message e))); split; [|split].
  - simpl; rewrite !failures_app; simpl; now rewrite !app_nil_r.
  - unfold response_data; intros ->; reflexivity.
  - unfold response_data, js_or; intros r ->; reflexivity.
Qed.

End WithServer.

Lemma buffer_is_latest_edit_witness :
  editorValue
    (App (state (run ([Click; ValueChange "a"]
                      ++ ValueChange "let x = 1"
                      :: [Click;
                          Settled (Scenario.ok (JString "ok"));
                          Settled Scenario.networkError])
                     mounted)))
  = "let x = 1".
Proof.
  apply (proj2 (buffer_is_latest_edit mounted)
           [Click; ValueChange "a"] "let x = 1"
           [Click; Settled (Scenario.ok (JString "ok"));
            Settled Scenario.networkError]).
  reflexivity.
Defined.

Lemma review_is_latest_answer_witness :
  markdownChildren
    (App (state (run ([Click; Click;
                       Settled (Scenario.ok (JString "second click"))]
                      ++ Settled (Fulfilled {| data := JString "first click";
                                               status := 200 |})
                      :: [ValueChange "x"; Click;
                          Settled Scenario.networkError])
                     mounted)))
  = JString "first click".
Proof.
  apply (review_is_latest_answer
           [Click; Click; Settled (Scenario.ok (JString "second click"))]
           [ValueChange "x"; Click; Settled Scenario.networkError]
           {| data := JString "first click"; status := 200 |} mounted).
  reflexivity.
Defined.

Lemma failure_detail_witness :
  exists detail,
    failures (trace (snd (reviewCode
                            (fun _ _ => Scenario.serverError (JString ""))
                            mounted))) =
      failures (trace mounted) ++ [[JString "Error reviewing code:"; detail]] /\
    (Some {| data := JString ""; status := 500 |} = None ->
     detail = JString "Request failed with status code 500") /\
    (forall r,
        Some {| data := JString ""; status := 500 |} = Some r ->
        detail = if truthy (data r) then data r
                 else JString "Request failed with status code 500").
Proof.
  apply (failure_detail (fun _ _ => Scenario.serverError (JString "")) mounted
           {| message := "Request failed with status code 500";
              response := Some {| data := JString ""; status := 500 |} |}).
  reflexivity.
Defined.

End PageFacts.

(** ** Sample runs *)

Module Runs.
Import Backend.

(** The template literal: 6742 bytes, its section headings among them. *)
Example template_size : N.of_nat (String.length PromptTemplate) = 6742%N.
Proof. vm_compute; reflexivity. Qed.

Example template_headings :
  includes "ISSUES DETECTED" PromptTemplate = true /\
  includes "const template = `Value: ${value}`;" PromptTemplate = true.
Proof. split; vm_compute; reflexivity. Qed.

(** An empty [code] is forwarded as it is. *)
Example empty_code_forwarded :
  calls (events (snd (dispatch (app Scenario.parser (Scenario.answering "ok"))
                               (Scenario.reviewRequest "") boot)))
  = [(model boot, JString "")].
Proof. reflexivity. Qed.

(** A body without a [code] field: [undefined] is forwarded. *)
Example missing_code_forwarded :
  calls (events (snd (dispatch (app Scenario.parser (Scenario.answering "ok"))
                               {| method := POST;
                                  path := "/api/ai/get-review";
                                  headers := [("content-type",
                                               "application/json")];
                                  content := "{}";
                                  body := JObject [] |} boot)))
  = [(model boot, JUndefined)].
Proof. reflexivity. Qed.

(** The path of the review endpoint is taken in any case and with a slash
    at its end. *)
Example review_path_in_capitals :
  fst (dispatch (app Scenario.parser (Scenario.answering "ok"))
                (Scenario.reviewRequestAt "/API/AI/Get-Review/" "x") boot)
  = Normal (send (JString "ok")).
Proof. reflexivity. Qed.

(** A failure of the model is logged once and leaves the controller as an
    exception. *)
Example failure_propagates :
  dispatch (app Scenario.parser (Scenario.rejecting (JString "quota")))
           (Scenario.reviewRequest "x") boot
  = (Thrown (JString "quota"),
     {| model := model boot;
        events := [GenerateContentCall (model boot) (JString "x");
                   ConsoleError [JString "Error generating content:";
                                 JString "quota"]] |}).
Proof. reflexivity. Qed.

(** A body the parser refuses: the request is answered 400, the error is
    written to the console and the controller is not run. *)
Example refused_body :
  dispatch (app Scenario.parser (Scenario.answering "ok"))
           {| method := POST; path := "/api/ai/get-review";
              headers := [("content-type", "application/json")];
              content := "{"; body := JUndefined |} boot
  = (Normal Scenario.badRequest,
     {| model := model boot;
        events := [ConsoleError [JString "SyntaxError"]] |}).
Proof. reflexivity. Qed.

(** HEAD / is served by the route of GET / and answered without a body;
    a preflight request is answered by [cors()]. *)
Example head_and_options :
  fst (dispatch (app Scenario.parser (Scenario.answering "ok"))
                {| method := HEAD; path := "/"; headers := [];
                   content := ""; body := JUndefined |} boot)
  = Normal {| status := 200; payload := JUndefined |} /\
  fst (dispatch (app Scenario.parser (Scenario.answering "ok"))
                {| method := OPTIONS; path := "/api/ai/get-review";
                   headers := []; content := ""; body := JUndefined |} boot)
  = Normal {| status := 204; payload := JUndefined |}.
Proof. split; reflexivity. Qed.

(** The helper beside the component returns 2. *)
Example sum_is_two : Frontend.sum = JNumber 2.
Proof. reflexivity. Qed.

(** A path no layer takes. *)
Example unrouted :
  fst (dispatch (app Scenario.parser (Scenario.answering "ok"))
                {| method := GET; path := "/api/ai"; headers := [];
                   content := ""; body := JUndefined |} boot)
  = Normal notFound.
Proof. reflexivity. Qed.

(** A review arrives, then a request fails: the review stays on the page. *)
Example review_survives_failure :
  Frontend.state
    (Frontend.run [Frontend.Click;
                   Frontend.Settled (Scenario.ok (JString "## Review"));
                   Frontend.ValueChange "let x = 1";
                   Frontend.Click;
                   Frontend.Settled Scenario.networkError]
                  Frontend.mounted)
  = {| Frontend.code := "let x = 1"; Frontend.review := JString "## Review" |}.
Proof. reflexivity. Qed.

(** Two clicks whose requests are answered in the other order: the answer
    to the first click arrives last and is the one that stays. *)
Example answers_out_of_order :
  Frontend.review
    (Frontend.state
       (Frontend.run [Frontend.ValueChange "a";
                      Frontend.Click;
                      Frontend.ValueChange "b";
                      Frontend.Click;
                      Frontend.Settled (Scenario.ok (JString "review of b"));
                      Frontend.Settled (Scenario.ok (JString "review of a"))]
                     Frontend.mounted))
  = JString "review of a".
Proof. reflexivity. Qed.

(** What the console shows for a failure: the body of the error response
    when it is truthy, the message of the error otherwise. *)
Example logged_on_failure :
  Frontend.trace
    (Frontend.run [Frontend.ValueChange "";
                   Frontend.Click;
                   Frontend.Click;
                   Frontend.Settled Scenario.networkError;
                   Frontend.Settled (Scenario.serverError (JString "quota"))]
                  {| Frontend.state := Frontend.initialState;
                     Frontend.trace := [] |})
  = [Frontend.ConsoleLog [JString "Sending code for review:"; JString ""];
     Frontend.HttpPost Frontend.reviewEndpoint (JObject [("code", JString "")]);
     Frontend.ConsoleLog [JString "Sending code for review:"; JString ""];
     Frontend.HttpPost Frontend.reviewEndpoint (JObject [("code", JString "")]);
     Frontend.ConsoleError [JString "Error reviewing code:";
                            JString "Network Error"];
     Frontend.ConsoleError [JString "Error reviewing code:"; JString "quota"]].
Proof. reflexivity. Qed.

End Runs.
